(** * python3-gpiod: the pybind11 binding layer of libgpiodcxx

    Shallow embedding of [src/c_src/type_cast.h] (the [std::bitset<32>]
    type caster), of the argument handling of the bound [request]
    methods ([line_wrapper.h], [line_bulk_wrapper.h], [gpiod.cpp]), of the
    way class constants are registered ([chip_wrapper.h], [gpiod.cpp]) and
    of the [line_bulk.__iter__] binding with [py::keep_alive<0, 1>];
    also the [line] methods taking a flag set or a defaulted value, the
    [line_request.flags] attribute and the constants of every class. *)

From Stdlib Require Import ZArith Ascii String List Bool Lia.
Import ListNotations.
Open Scope string_scope.
Open Scope Z_scope.
#[local] Set Warnings "-register-all".

(** ** Host values and the interpreter's error indicator *)

Inductive PyExc :=
| TypeError
| ValueError
| OverflowError
| AttributeError.

(** Host objects reaching the binding.  [PyHandle cls id] is an instance
    of a bound native class (a [gpiod::line], [gpiod::line_request], ...). *)
Inductive PyObject :=
| PyLong (z : Z)
| PyBool (b : bool)
| PyStr (s : string)
| PyNone
| PyList (xs : list PyObject)
| PyHandle (cls : string) (id : nat).

(** The thread's pending exception ([PyErr_Occurred] is [Some _]). *)
Definition PyErrState := option PyExc.

Definition PyErr_Occurred (st : PyErrState) : bool :=
  match st with Some _ => true | None => false end.

(** Decimal text accepted by [int(str)]: an optional sign followed by
    decimal digits.  (CPython also strips surrounding white space and
    allows [_] between digits; the claims below do not depend on it.) *)
Fixpoint parse_digits (s : string) (acc : Z) : option Z :=
  match s with
  | EmptyString => Some acc
  | String c rest =>
      let n := Z.of_nat (Ascii.nat_of_ascii c) - 48 in
      if (0 <=? n) && (n <=? 9) then parse_digits rest (acc * 10 + n) else None
  end.

Definition parse_int (s : string) : option Z :=
  match s with
  | EmptyString => None
  | String "-"%char EmptyString | String "+"%char EmptyString => None
  | String "-"%char rest => option_map Z.opp (parse_digits rest 0)
  | String "+"%char rest => parse_digits rest 0
  | _ => parse_digits s 0
  end.

(** [PyNumber_Long(o)]: the host's [int(o)]; on failure it returns
    [NULL] and sets the error indicator. *)
Definition PyNumber_Long (o : PyObject) (st : PyErrState)
  : option Z * PyErrState :=
  match o with
  | PyLong z => (Some z, st)
  | PyBool b => (Some (if b then 1 else 0), st)
  | PyStr s =>
      match parse_int s with
      | Some z => (Some z, st)
      | None => (None, Some ValueError)
      end
  | PyNone | PyList _ | PyHandle _ _ => (None, Some TypeError)
  end.

(** ** The [std::bitset<32>] type caster ([type_cast.h]) *)
Module TypeCast.
Section Platform.

(** Width of C [unsigned long] on the host platform (64 on LP64 Linux,
    32 on ILP32); the standard guarantees at least 32. *)
Variable ULONG_BITS : Z.
Hypothesis ULONG_BITS_ge_32 : 32 <= ULONG_BITS.

Definition ULONG_MAX : Z := 2 ^ ULONG_BITS - 1.

(** [PyLong_AsUnsignedLong(pylong)]: out of range (negative or above
    [ULONG_MAX]) it raises [OverflowError] and returns
    [(unsigned long)-1]. *)
Definition PyLong_AsUnsignedLong (z : Z) (st : PyErrState) : Z * PyErrState :=
  if (z <? 0) || (ULONG_MAX <? z) then (ULONG_MAX, Some OverflowError)
  else (z, st).

(** A [std::bitset<32>] as the integer of its 32 bits, in [0, 2^32). *)
Definition bitset32 := Z.

(** [std::bitset<32>(unsigned long long val)]: keeps the low 32 bits. *)
Definition bitset_of_ull (v : Z) : bitset32 := v mod 2 ^ 32.

(** [bitset::test(pos)] / [operator[]]: element [pos]. *)
Definition bitset_test (b : bitset32) (pos : Z) : bool := Z.testbit b pos.

(** [value == -1]: [-1] becomes [std::bitset<32>(-1ULL)]. *)
Definition bitset_eq_minus1 (b : bitset32) : bool :=
  Z.eqb b (bitset_of_ull ((-1) mod 2 ^ 64)).

(** [bitset::to_ulong()]: throws [std::overflow_error] when the bits do
    not fit in [unsigned long] ([None]). *)
Definition to_ulong (b : bitset32) : option Z :=
  if b <=? ULONG_MAX then Some b else None.

Record load_result := {
  load_ok : bool;          (** what [load] returns *)
  load_value : bitset32;   (** the caster's [value] member afterwards *)
  load_err : PyErrState    (** the error indicator afterwards *)
}.

(** The caster's [value] member before [load] runs: [std::bitset<32>()]. *)
Definition bitset_default : bitset32 := 0.

(** [type_caster<std::bitset<32>>::load(src, convert)], lines 48-59. *)
Definition load (src : PyObject) (st : PyErrState) : load_result :=
  let (tmp, st1) := PyNumber_Long src st in
  match tmp with
  | None => {| load_ok := false; load_value := bitset_default; load_err := st1 |}
  | Some t =>
      let (ul, st2) := PyLong_AsUnsignedLong t st1 in
      let value := bitset_of_ull ul in
      {| load_ok := negb (bitset_eq_minus1 value && negb (PyErr_Occurred st2));
         load_value := value;
         load_err := st2 |}
  end.

(** [type_caster<std::bitset<32>>::cast(src, policy, parent)], lines
    68-72: [PyLong_FromUnsignedLong(src.to_ulong())]; [None] is the
    [std::overflow_error] of [to_ulong]. *)
Definition cast (src : bitset32) : option PyObject :=
  match to_ulong src with
  | Some ul => Some (PyLong ul)
  | None => None
  end.

End Platform.
End TypeCast.

(** ** Argument handling of a bound method (pybind11 [cpp_function]) *)
Module Dispatch.

(** C++ parameter types occurring in the bindings below. *)
Inductive ParamTy :=
| TInt                    (** [int] *)
| TIntVector              (** [const std::vector<int> &] *)
| TBitset                 (** [std::bitset<32>], through [type_cast.h] *)
| TClass (cls : string).  (** a bound class, [self] included *)

(** Converted C++ argument values. *)
Inductive CVal :=
| CInt (z : Z)
| CIntVec (zs : list Z)
| CBits (b : TypeCast.bitset32)
| CRef (cls : string) (id : nat).

(** [py::arg(name)] and [py::arg(name) = default]: the default is kept
    as the host object obtained by casting the C++ default value. *)
Record arg_spec := {
  arg_name : string;
  arg_ty : ParamTy;
  arg_default : option PyObject
}.

Inductive call_result (R : Type) :=
| Returned (r : R)
| Raised (e : PyExc).
Arguments Returned {R} r.
Arguments Raised {R} e.

Definition INT_MIN : Z := - 2 ^ 31.
Definition INT_MAX : Z := 2 ^ 31 - 1.

Fixpoint assoc_str (k : string) (kw : list (string * PyObject)) : option PyObject :=
  match kw with
  | [] => None
  | (k', v) :: rest => if String.eqb k k' then Some v else assoc_str k rest
  end.

(** Matching the call's positional and keyword arguments to the
    declared parameters: positional first, then keywords, then defaults;
    a missing argument, a surplus positional, a keyword given twice or an
    unknown keyword leaves the overload unmatched. *)
Fixpoint match_args (ps : list arg_spec) (pos : list PyObject)
    (kw : list (string * PyObject)) : option (list PyObject) :=
  match ps, pos with
  | [], [] => Some []
  | [], _ :: _ => None
  | p :: ps', v :: pos' =>
      match assoc_str (arg_name p) kw with
      | Some _ => None
      | None => option_map (cons v) (match_args ps' pos' kw)
      end
  | p :: ps', [] =>
      match assoc_str (arg_name p) kw, arg_default p with
      | Some v, _ | None, Some v => option_map (cons v) (match_args ps' [] kw)
      | None, None => None
      end
  end.

Definition kw_known (ps : list arg_spec) (kw : list (string * PyObject)) : bool :=
  forallb (fun kv => existsb (fun p => String.eqb (arg_name p) (fst kv)) ps) kw.

Section Casters.
Variable ULONG_BITS : Z.

(** The [type_caster] of each parameter type. *)
Definition int_of (o : PyObject) : option Z :=
  match o with
  | PyLong z => if (INT_MIN <=? z) && (z <=? INT_MAX) then Some z else None
  | PyBool b => Some (if b then 1 else 0)
  | _ => None
  end.

Fixpoint int_list (xs : list PyObject) : option (list Z) :=
  match xs with
  | [] => Some []
  | x :: rest =>
      match int_of x with
      | Some z => option_map (cons z) (int_list rest)
      | None => None
      end
  end.

Definition convert (t : ParamTy) (o : PyObject) (st : PyErrState)
  : option CVal * PyErrState :=
  match t, o with
  | TInt, _ =>
      match int_of o with Some z => (Some (CInt z), st) | None => (None, st) end
  | TIntVector, PyList xs =>
      match int_list xs with Some zs => (Some (CIntVec zs), st) | None => (None, st) end
  | TIntVector, _ => (None, st)
  | TBitset, _ =>
      let r := TypeCast.load ULONG_BITS o st in
      if TypeCast.load_ok r then (Some (CBits (TypeCast.load_value r)), TypeCast.load_err r)
      else (None, TypeCast.load_err r)
  | TClass c, PyHandle c' id =>
      if String.eqb c c' then (Some (CRef c id), st) else (None, st)
  | TClass _, _ => (None, st)
  end.

Fixpoint convert_all (ps : list arg_spec) (vs : list PyObject) (st : PyErrState)
  : option (list CVal) * PyErrState :=
  match ps, vs with
  | [], [] => (Some [], st)
  | p :: ps', v :: vs' =>
      let (c, st1) := convert (arg_ty p) v st in
      match c with
      | None => (None, st1)
      | Some cv =>
          let (cs, st2) := convert_all ps' vs' st1 in
          (option_map (cons cv) cs, st2)
      end
  | _, _ => (None, st)
  end.

(** The dispatcher of a single-overload function: when no overload
    accepts the arguments it raises [TypeError] ("incompatible function
    arguments") and the native function is not called. *)
Definition dispatch {R : Type} (ps : list arg_spec) (native : list CVal -> R)
    (pos : list PyObject) (kw : list (string * PyObject)) (st : PyErrState)
  : call_result R :=
  if negb (kw_known ps kw) then Raised TypeError else
  match match_args ps pos kw with
  | None => Raised TypeError
  | Some vs =>
      match fst (convert_all ps vs st) with
      | None => Raised TypeError
      | Some cs => Returned (native cs)
      end
  end.

End Casters.

Definition self_arg (cls : string) : arg_spec :=
  {| arg_name := "self"; arg_ty := TClass cls; arg_default := None |}.

(** [line_wrapper.h] lines 86-95 (and [gpiod.cpp] lines 63-66):
    [.def("request", &gpiod::line::request, py::arg("config"),
          py::arg("default_val") = 0)]. *)
Definition line_request_params : list arg_spec :=
  [ self_arg "line";
    {| arg_name := "config"; arg_ty := TClass "line_request"; arg_default := None |};
    {| arg_name := "default_val"; arg_ty := TInt; arg_default := Some (PyLong 0) |} ].

(** [line_bulk_wrapper.h] lines 59-69:
    [.def("request", &gpiod::line_bulk::request, py::arg("config"),
          py::arg("default_vals") = std::vector<int>())]. *)
Definition line_bulk_request_params : list arg_spec :=
  [ self_arg "line_bulk";
    {| arg_name := "config"; arg_ty := TClass "line_request"; arg_default := None |};
    {| arg_name := "default_vals"; arg_ty := TIntVector; arg_default := Some (PyList []) |} ].

(** Setter of [line_request.flags] ([def_readwrite("flags", ...)], a
    [std::bitset<32>] member): the one place the custom caster loads. *)
Definition line_request_flags_setter_params : list arg_spec :=
  [ self_arg "line_request";
    {| arg_name := "value"; arg_ty := TBitset; arg_default := None |} ].

End Dispatch.

(** ** Class-level constants *)
Module ClassAttrs.

(** An entry of a bound class's dictionary: a plain class attribute, or
    a [def_property_readonly_static(name, [](py::object) { return int(E); })]
    static property (getter only). *)
Inductive ClassAttr :=
| PlainAttr (v : PyObject)
| StaticPropRO (v : Z).

Definition class_dict := list (string * ClassAttr).

Fixpoint dict_get (name : string) (d : class_dict) : option ClassAttr :=
  match d with
  | [] => None
  | (k, a) :: rest => if String.eqb name k then Some a else dict_get name rest
  end.

Fixpoint dict_set (name : string) (a : ClassAttr) (d : class_dict) : class_dict :=
  match d with
  | [] => [(name, a)]
  | (k, a') :: rest =>
      if String.eqb name k then (k, a) :: rest else (k, a') :: dict_set name a rest
  end.

(** Host read [cls.NAME] ([None]: [AttributeError]). *)
Definition getattr (d : class_dict) (name : string) : option PyObject :=
  match dict_get name d with
  | Some (PlainAttr v) => Some v
  | Some (StaticPropRO v) => Some (PyLong v)
  | None => None
  end.

(** Host assignment [cls.NAME = v], and pybind11's [cls.attr(NAME) = v]
    (both [PyObject_SetAttr] on the class, through pybind11's metaclass
    [__setattr__]): a static property without a setter refuses it with
    [AttributeError] ([None]); otherwise the class attribute is replaced. *)
Definition setattr (d : class_dict) (name : string) (v : PyObject) : option class_dict :=
  match dict_get name d with
  | Some (StaticPropRO _) => None
  | _ => Some (dict_set name (PlainAttr v) d)
  end.

Definition def_property_readonly_static (d : class_dict) (name : string) (v : Z)
  : class_dict :=
  dict_set name (StaticPropRO v) d.

Section Registration.
(** The value of the native enumerator [gpiod::CLS::NAME]. *)
Variable native_enum : string -> string -> Z.

(** [chip_wrapper.h] lines 125-139 (and likewise [line_wrapper.h],
    [line_request_wrapper.h], [line_event_wrapper.h]). *)
Definition register_readonly (cls : string) (names : list string) (d : class_dict)
  : class_dict :=
  fold_left (fun d' n => def_property_readonly_static d' n (native_enum cls n)) names d.

(** [gpiod.cpp] lines 23-27: [chip.attr("OPEN_LOOKUP") = int(gpiod::chip::OPEN_LOOKUP); ...]. *)
Definition register_attr (cls : string) (names : list string) (d : class_dict)
  : option class_dict :=
  fold_left (fun od n => match od with
                         | Some d' => setattr d' n (PyLong (native_enum cls n))
                         | None => None
                         end) names (Some d).

Definition chip_open_modes : list string :=
  ["OPEN_LOOKUP"; "OPEN_BY_PATH"; "OPEN_BY_NAME"; "OPEN_BY_LABEL"; "OPEN_BY_NUMBER"].

(** The class [chip] as [set_chip_class] leaves it (constants only). *)
Definition chip_dict_wrapper : class_dict :=
  register_readonly "chip" chip_open_modes [].

(** The class [chip] as [PYBIND11_MODULE(_gpiod)] of [gpiod.cpp] leaves it. *)
Definition chip_dict_gpiod_cpp : option class_dict :=
  register_attr "chip" chip_open_modes [].

End Registration.
End ClassAttrs.

(** ** [line_bulk.__iter__] and [py::keep_alive<0, 1>] *)
Module KeepAlive.

(** Heap objects: a [line_bulk] instance (its [std::vector<gpiod::line>],
    lines as ids) and the state of a [py::make_iterator] iterator:
    the source bulk, the current position and [self.end()] as an index. *)
Inductive HeapObj :=
| BulkObj (lines : list nat)
| IterObj (bulk : nat) (pos : nat) (end_pos : nat).

(** A heap cell: the object, its reference count, and the patients kept
    alive by it ([keep_alive] nurse/patient links). *)
Record cell := { obj : HeapObj; refcnt : nat; patients : list nat }.

Definition heap := list (nat * cell).

Fixpoint hget (h : heap) (r : nat) : option cell :=
  match h with
  | [] => None
  | (k, c) :: rest => if Nat.eqb r k then Some c else hget rest r
  end.

Fixpoint hset (h : heap) (r : nat) (c : cell) : heap :=
  match h with
  | [] => [(r, c)]
  | (k, c') :: rest => if Nat.eqb r k then (k, c) :: rest else (k, c') :: hset rest r c
  end.

Fixpoint hremove (h : heap) (r : nat) : heap :=
  match h with
  | [] => []
  | (k, c) :: rest => if Nat.eqb r k then rest else (k, c) :: hremove rest r
  end.

Definition fresh (h : heap) : nat := S (list_max (map fst h)).

Definition Py_INCREF (r : nat) (h : heap) : heap :=
  match hget h r with
  | Some c => hset h r {| obj := obj c; refcnt := S (refcnt c); patients := patients c |}
  | None => h
  end.

(** [Py_DECREF]: at zero the object is freed and its patients released;
    [fuel] bounds the chain of deallocations (each frees one object). *)
Fixpoint decref (fuel : nat) (r : nat) (h : heap) : heap :=
  match fuel with
  | O => h
  | S f =>
      match hget h r with
      | None => h
      | Some c =>
          match refcnt c with
          | O | S O => fold_left (fun h' p => decref f p h') (patients c) (hremove h r)
          | S n => hset h r {| obj := obj c; refcnt := n; patients := patients c |}
          end
      end
  end.

Definition Py_DECREF (r : nat) (h : heap) : heap := decref (length h) r h.

(** [keep_alive_impl(nurse, patient)]: the nurse holds a reference to
    the patient until the nurse is freed. *)
Definition keep_alive (nurse patient : nat) (h : heap) : heap :=
  let h1 := Py_INCREF patient h in
  match hget h1 nurse with
  | Some c => hset h1 nurse {| obj := obj c; refcnt := refcnt c;
                               patients := patient :: patients c |}
  | None => h1
  end.

(** Calling a bound [__iter__] returning [py::make_iterator(self.begin(),
    self.end())] on [self]; [ka] says whether [py::keep_alive<0, 1>] is
    among its call policies.  Returns the new iterator (one reference,
    owned by the caller). *)
Definition make_iterator_call (ka : bool) (self : nat) (h : heap) : option (nat * heap) :=
  match hget h self with
  | Some c =>
      match obj c with
      | BulkObj lines =>
          let it := fresh h in
          let h1 := hset h it {| obj := IterObj self 0 (length lines);
                                 refcnt := 1; patients := [] |} in
          Some (it, if ka then keep_alive it self h1 else h1)
      | IterObj _ _ _ => None
      end
  | None => None
  end.

(** [line_bulk_wrapper.h] lines 91-100. *)
Definition line_bulk_iter (self : nat) (h : heap) : option (nat * heap) :=
  make_iterator_call true self h.

Inductive next_result :=
| Yield (line : nat)
| StopIteration
| UseAfterFree.

(** [__next__] of a [make_iterator] iterator: [*it] reads the source
    bulk's storage, which must still be allocated. *)
Definition iter_next (it : nat) (h : heap) : next_result * heap :=
  match hget h it with
  | Some c =>
      match obj c with
      | IterObj b pos e =>
          if Nat.eqb pos e then (StopIteration, h) else
          match hget h b with
          | Some cb =>
              match obj cb, nth_error (match obj cb with BulkObj ls => ls | _ => [] end) pos with
              | BulkObj _, Some l =>
                  (Yield l, hset h it {| obj := IterObj b (S pos) e;
                                         refcnt := refcnt c; patients := patients c |})
                  | _, _ => (UseAfterFree, h)
              end
          | None => (UseAfterFree, h)
          end
      | BulkObj _ => (UseAfterFree, h)
      end
  | None => (UseAfterFree, h)
  end.

Fixpoint next_n (n : nat) (it : nat) (h : heap) : list next_result * heap :=
  match n with
  | O => ([], h)
  | S m =>
      let (r, h1) := iter_next it h in
      let (rs, h2) := next_n m it h1 in
      (r :: rs, h2)
  end.

Fixpoint drop_n (n : nat) (r : nat) (h : heap) : heap :=
  match n with
  | O => h
  | S m => drop_n m r (Py_DECREF r h)
  end.

(** The scenario: take an iterator over bulk [b], drop the [k] other
    references to [b], then call [__next__] [n] times. *)
Definition iterate_after_drop (ka : bool) (b k n : nat) (h : heap) : option (list next_result) :=
  match make_iterator_call ka b h with
  | Some (it, h1) => Some (fst (next_n n it (drop_n k b h1)))
  | None => None
  end.

End KeepAlive.

(** ** Further bound methods of [line] and the [line_request.flags] attribute *)
Module Bindings.
Import Dispatch.

Definition int_arg (name : string) (default : option PyObject) : arg_spec :=
  {| arg_name := name; arg_ty := TInt; arg_default := default |}.

(** [line_wrapper.h] lines 116-120 (libgpiodcxx >= 1.5):
    [.def("set_config", &gpiod::line::set_config, py::arg("direction"),
          py::arg("flags"), py::arg("value") = 0)]
    for [set_config(int direction, std::bitset<32> flags, int value)]. *)
Definition line_set_config_params : list arg_spec :=
  [ self_arg "line";
    int_arg "direction" None;
    {| arg_name := "flags"; arg_ty := TBitset; arg_default := None |};
    int_arg "value" (Some (PyLong 0)) ].

(** [line_wrapper.h] line 121: [.def("set_flags", &gpiod::line::set_flags,
    py::arg("flags"))] for [set_flags(std::bitset<32> flags)]. *)
Definition line_set_flags_params : list arg_spec :=
  [ self_arg "line";
    {| arg_name := "flags"; arg_ty := TBitset; arg_default := None |} ].

(** [line_wrapper.h] lines 123-125: [.def("set_direction_output",
    &gpiod::line::set_direction_output, py::arg("value") = 0)]. *)
Definition line_set_direction_output_params : list arg_spec :=
  [ self_arg "line"; int_arg "value" (Some (PyLong 0)) ].

(** The fields of a [gpiod::line_request]. *)
Record line_request_fields := {
  consumer : string;
  request_type : Z;
  flags : TypeCast.bitset32
}.

(** Setter made by [.def_readwrite("flags", &gpiod::line_request::flags)]
    ([line_request_wrapper.h] line 70, [gpiod.cpp] line 48):
    [c.*pm = value] once the argument is converted. *)
Definition set_flags_attr (ULONG_BITS : Z) (req : line_request_fields) (id : nat)
    (o : PyObject) (st : PyErrState) : call_result line_request_fields :=
  dispatch ULONG_BITS line_request_flags_setter_params
    (fun cs => match cs with
               | [_; CBits b] => {| consumer := consumer req;
                                    request_type := request_type req;
                                    flags := b |}
               | _ => req
               end)
    [PyHandle "line_request" id; o] [] st.

(** Its getter: the member returned through the caster's [cast]. *)
Definition get_flags_attr (ULONG_BITS : Z) (req : line_request_fields) : option PyObject :=
  TypeCast.cast ULONG_BITS (flags req).

End Bindings.

(** ** The constants of every bound class *)
Module Constants.
Import ClassAttrs.
Section Registration.
Variable native_enum : string -> string -> Z.

Definition line_directions_active : list string :=
  ["DIRECTION_INPUT"; "DIRECTION_OUTPUT"; "ACTIVE_LOW"; "ACTIVE_HIGH"].

Definition line_biases : list string :=
  ["BIAS_AS_IS"; "BIAS_DISABLE"; "BIAS_PULL_UP"; "BIAS_PULL_DOWN"].

Definition line_request_consts : list string :=
  ["DIRECTION_AS_IS"; "DIRECTION_INPUT"; "DIRECTION_OUTPUT";
   "EVENT_FALLING_EDGE"; "EVENT_RISING_EDGE"; "EVENT_BOTH_EDGES"].

Definition line_event_consts : list string := ["RISING_EDGE"; "FALLING_EDGE"].

(** [set_line_class], [line_wrapper.h] lines 157-183; [v15] is
    [LIBGPIODCXX_VERSION_CODE >= LIBGPIODCXX_VERSION(1, 5)]. *)
Definition line_dict_wrapper (v15 : bool) : class_dict :=
  let d := register_readonly native_enum "line" line_directions_active [] in
  if v15 then register_readonly native_enum "line" line_biases d else d.

(** [set_line_request_class], [line_request_wrapper.h] lines 37-65. *)
Definition line_request_dict_wrapper : class_dict :=
  register_readonly native_enum "line_request" line_request_consts [].

(** [set_line_event_class], [line_event_wrapper.h] lines 37-43. *)
Definition line_event_dict_wrapper : class_dict :=
  register_readonly native_enum "line_event" line_event_consts [].

(** [set_line_bulk_class], [line_bulk_wrapper.h] lines 88-89: [MAX_LINES]. *)
Definition line_bulk_dict_wrapper : class_dict :=
  register_readonly native_enum "line_bulk" ["MAX_LINES"] [].




End Registration.
End Constants.


Example load_5_lp64 :
  TypeCast.load 64 (PyLong 5) None
  = {| TypeCast.load_ok := true; TypeCast.load_value := 5; TypeCast.load_err := None |}.
Proof. reflexivity. Qed.

Example load_all_ones_lp64 :
  TypeCast.load_ok (TypeCast.load 64 (PyLong 4294967295) None) = false.
Proof. reflexivity. Qed.

Example load_neg_lp64 :
  TypeCast.load 64 (PyLong (-3)) None
  = {| TypeCast.load_ok := true; TypeCast.load_value := 4294967295;
       TypeCast.load_err := Some OverflowError |}.
Proof. reflexivity. Qed.

Example load_text :
  TypeCast.load_ok (TypeCast.load 64 (PyStr "abc"%string) None) = false.
Proof. reflexivity. Qed.

Example load_text_digits :
  TypeCast.load_ok (TypeCast.load 64 (PyStr "12"%string) None) = true.
Proof. reflexivity. Qed.

Example iter_keep_alive_demo :
  KeepAlive.iterate_after_drop true 1 1 4
    [(1%nat, {| KeepAlive.obj := KeepAlive.BulkObj [10; 11; 12]%nat;
               KeepAlive.refcnt := 1; KeepAlive.patients := [] |})]
  = Some [KeepAlive.Yield 10; KeepAlive.Yield 11; KeepAlive.Yield 12; KeepAlive.StopIteration].
Proof. reflexivity. Qed.

Example iter_no_keep_alive_demo :
  KeepAlive.iterate_after_drop false 1 1 2
    [(1%nat, {| KeepAlive.obj := KeepAlive.BulkObj [10; 11; 12]%nat;
               KeepAlive.refcnt := 1; KeepAlive.patients := [] |})]
  = Some [KeepAlive.UseAfterFree; KeepAlive.UseAfterFree].
Proof. reflexivity. Qed.

(** * Properties of the [std::bitset<32>] caster *)
Module TypeCastFacts.
Import TypeCast.
Section Facts.
Variable ULONG_BITS : Z.
Hypothesis ULONG_BITS_ge_32 : 32 <= ULONG_BITS.

Lemma minus1_bitset : bitset_of_ull ((-1) mod 2 ^ 64) = 2 ^ 32 - 1.
Proof. reflexivity. Qed.

Lemma two32_le_ulong : 2 ^ 32 <= 2 ^ ULONG_BITS.
Proof. apply Z.pow_le_mono_r; lia. Qed.

Lemma ulong_max_mod : ULONG_MAX ULONG_BITS mod 2 ^ 32 = 2 ^ 32 - 1.
Proof.
  unfold ULONG_MAX.
  replace ULONG_BITS with ((ULONG_BITS - 32) + 32) by lia.
  rewrite Z.pow_add_r by lia.
  symmetry. apply (Z.mod_unique _ _ (2 ^ (ULONG_BITS - 32 + 32 - 32) - 1)).
  - left. lia.
  - replace (ULONG_BITS - 32 + 32 - 32) with (ULONG_BITS - 32) by lia. ring.
Qed.

(** [load] on an integer [PyLong_AsUnsignedLong] accepts. *)
Lemma load_in_ulong (z : Z) (st : PyErrState) :
  0 <= z <= ULONG_MAX ULONG_BITS ->
  load ULONG_BITS (PyLong z) st
  = {| load_ok := negb (Z.eqb (z mod 2 ^ 32) (2 ^ 32 - 1) && negb (PyErr_Occurred st));
       load_value := z mod 2 ^ 32;
       load_err := st |}.
Proof.
  intros Hz. unfold load, PyNumber_Long, PyLong_AsUnsignedLong.
  replace ((z <? 0) || (ULONG_MAX ULONG_BITS <? z)) with false
    by (symmetry; apply orb_false_iff; split; apply Z.ltb_ge; lia).
  unfold bitset_eq_minus1. rewrite minus1_bitset. reflexivity.
Qed.


Lemma small_in_ulong (x : Z) : 0 <= x < 2 ^ 32 -> 0 <= x <= ULONG_MAX ULONG_BITS.
Proof. pose proof two32_le_ulong. unfold ULONG_MAX. lia. Qed.

Lemma pow2_not_all_ones (i : Z) : 0 <= i < 32 -> 2 ^ i <> 2 ^ 32 - 1.
Proof.
  intros Hi Heq.
  set (j := if Z.eqb i 0 then 1 else 0).
  assert (Hj : 0 <= j < 32 /\ j <> i)
    by (unfold j; destruct (Z.eqb_spec i 0); lia).
  assert (Z.testbit (2 ^ i) j = false) as Hl
    by (apply Z.pow2_bits_false; lia).
  assert (Z.testbit (2 ^ 32 - 1) j = true) as Hr.
  { replace (2 ^ 32 - 1) with (Z.ones 32) by reflexivity.
    rewrite Z.testbit_ones_nonneg by lia. apply Z.ltb_lt; lia. }
  rewrite Heq in Hl. congruence.
Qed.

(** C1 *)
(** Claim C1, as the code has it: the integer [0xFFFFFFFF], loaded with
    no error pending, is refused ([load] returns [false]) although no
    error was raised; the check [! (value == -1 && ! PyErr_Occurred())]
    is inverted. *)
Theorem load_rejects_all_ones :
  load ULONG_BITS (PyLong 4294967295) None
  = {| load_ok := false; load_value := 4294967295; load_err := None |}.
Proof.
  rewrite load_in_ulong by (apply small_in_ulong; lia). reflexivity.
Qed.

(** C2 *)
(** Claim C2, as the code has it: for [x] in [0, 2^32 - 1], loading [x]
    succeeds and casting the flag set back gives [x] exactly when [x]
    is not [2^32 - 1]; at [2^32 - 1] the load fails. *)
Theorem load_cast_roundtrip_except_all_ones (x : Z) :
  0 <= x < 2 ^ 32 ->
  (load_ok (load ULONG_BITS (PyLong x) None) = true
   /\ cast ULONG_BITS (load_value (load ULONG_BITS (PyLong x) None)) = Some (PyLong x))
  <-> x <> 2 ^ 32 - 1.
Proof.
  intros Hx. rewrite load_in_ulong by (apply small_in_ulong; lia). cbn.
  rewrite Z.mod_small by lia.
  unfold cast, to_ulong.
  pose proof two32_le_ulong.
  replace (x <=? ULONG_MAX ULONG_BITS) with true
    by (symmetry; apply Z.leb_le; unfold ULONG_MAX; lia).
  destruct (Z.eqb_spec x 4294967295) as [E|E]; cbn.
  - split; [intros [Hk _]; discriminate Hk | intros Hk; contradiction].
  - split; [intros _; exact E | intros _; split; reflexivity].
Qed.

(** C3 *)
(** Claim C3: for each [i] in [0, 32), loading [2^i] succeeds and gives
    the flag set whose element [i] alone is set. *)
Theorem load_single_bit (i : Z) :
  0 <= i < 32 ->
  load_ok (load ULONG_BITS (PyLong (2 ^ i)) None) = true
  /\ forall j, 0 <= j < 32 ->
       bitset_test (load_value (load ULONG_BITS (PyLong (2 ^ i)) None)) j = Z.eqb j i.
Proof.
  intros Hi.
  assert (Hp : 0 < 2 ^ i < 2 ^ 32).
  { split. apply Z.pow_pos_nonneg; lia. apply Z.pow_lt_mono_r; lia. }
  rewrite load_in_ulong by (apply small_in_ulong; lia). cbn.
  rewrite Z.mod_small by lia.
  split.
  - rewrite (proj2 (Z.eqb_neq (2 ^ i) 4294967295) (pow2_not_all_ones i Hi)).
    reflexivity.
  - intros j Hj. unfold bitset_test. rewrite Z.pow2_bits_eqb by lia.
    apply Z.eqb_sym.
Qed.

(** C5 (amended) *)
(** Claim C5, amended: an integer needing more than 32 bits but
    representable as a C [unsigned long] is not rejected: [load] accepts
    it and keeps its low 32 bits (for low bits other than all ones). *)
Theorem load_truncates_wide (x : Z) :
  2 ^ 32 <= x <= ULONG_MAX ULONG_BITS ->
  x mod 2 ^ 32 <> 2 ^ 32 - 1 ->
  load ULONG_BITS (PyLong x) None
  = {| load_ok := true; load_value := x mod 2 ^ 32; load_err := None |}.
Proof.
  intros Hx Hlow. rewrite load_in_ulong by lia.
  destruct (Z.eqb_spec (x mod 2 ^ 32) (2 ^ 32 - 1)); [contradiction | reflexivity].
Qed.

(** C6 *)
(** Claim C6: [cast] succeeds for every 32-bit flag set and gives a
    non-negative integer whose bit [i] is element [i] of the set. *)
Theorem cast_total_bitwise (b : bitset32) :
  0 <= b < 2 ^ 32 ->
  exists n, cast ULONG_BITS b = Some (PyLong n)
            /\ 0 <= n
            /\ forall i, 0 <= i < 32 -> Z.testbit n i = bitset_test b i.
Proof.
  intros Hb. exists b. unfold cast, to_ulong.
  pose proof two32_le_ulong.
  replace (b <=? ULONG_MAX ULONG_BITS) with true
    by (symmetry; apply Z.leb_le; unfold ULONG_MAX; lia).
  repeat split; try lia.
Qed.

(** C10 *)
(** Claim C10: when the integer extraction itself fails (the integer is
    negative or above [ULONG_MAX]), [load] reports success with the
    all-ones flag set and leaves the [OverflowError] pending. *)
Theorem load_accepts_failed_extraction (o : PyObject) (st : PyErrState) (z : Z) :
  fst (PyNumber_Long o st) = Some z ->
  z < 0 \/ ULONG_MAX ULONG_BITS < z ->
  load ULONG_BITS o st
  = {| load_ok := true; load_value := 2 ^ 32 - 1; load_err := Some OverflowError |}.
Proof.
  intros Hn Hz. unfold load.
  destruct (PyNumber_Long o st) as [t st1] eqn:E. cbn in Hn. subst t.
  unfold PyLong_AsUnsignedLong.
  replace ((z <? 0) || (ULONG_MAX ULONG_BITS <? z)) with true
    by (symmetry; apply orb_true_iff; destruct Hz; [left | right]; apply Z.ltb_lt; lia).
  unfold bitset_of_ull. rewrite ulong_max_mod. reflexivity.
Qed.

End Facts.
End TypeCastFacts.

(** * Properties of the bound methods' argument handling *)
Module DispatchFacts.
Import Dispatch.

(** C4 *)
(** Claim C4: a host value [int()] cannot convert makes [load] fail
    (no flag set is produced), and a call taking a [std::bitset<32>]
    (the [line_request.flags] setter) then raises [TypeError] without
    reaching the native code. *)
Theorem load_rejects_non_numeric (ULONG_BITS : Z) {R : Type} (native : list CVal -> R)
    (o : PyObject) (st : PyErrState) (id : nat) :
  fst (PyNumber_Long o st) = None ->
  TypeCast.load_ok (TypeCast.load ULONG_BITS o st) = false
  /\ dispatch ULONG_BITS line_request_flags_setter_params native
       [PyHandle "line_request" id; o] [] st = Raised TypeError.
Proof.
  intros Hn.
  assert (Hl : TypeCast.load_ok (TypeCast.load ULONG_BITS o st) = false).
  { unfold TypeCast.load. destruct (PyNumber_Long o st) as [t st1].
    cbn in Hn. subst t. reflexivity. }
  split; [exact Hl |].
  unfold dispatch. cbn.
  rewrite Hl. reflexivity.
Qed.

(** C7 *)
(** Claim C7: [line.request(config)] is the same call as
    [line.request(config, 0)] and [line.request(config, default_val=0)]
    (the native [request] receives [0]); [line_bulk.request(config)] is
    the same call as [line_bulk.request(config, [])]. *)
Theorem request_defaults (ULONG_BITS : Z) {R : Type}
    (native_line native_bulk : list CVal -> R)
    (self cfg : PyObject) (st : PyErrState) (s c : nat) :
  dispatch ULONG_BITS line_request_params native_line [self; cfg] [] st
  = dispatch ULONG_BITS line_request_params native_line [self; cfg; PyLong 0] [] st
  /\ dispatch ULONG_BITS line_request_params native_line [self; cfg] [] st
  = dispatch ULONG_BITS line_request_params native_line [self; cfg] [("default_val", PyLong 0)] st
  /\ dispatch ULONG_BITS line_request_params native_line
       [PyHandle "line" s; PyHandle "line_request" c] [] st
  = Returned (native_line [CRef "line" s; CRef "line_request" c; CInt 0])
  /\ dispatch ULONG_BITS line_bulk_request_params native_bulk [self; cfg] [] st
  = dispatch ULONG_BITS line_bulk_request_params native_bulk [self; cfg; PyList []] [] st.
Proof. repeat split; reflexivity. Qed.

End DispatchFacts.

(** * Properties of the class constants *)
Module ClassAttrFacts.
Import ClassAttrs.

(** C8 *)
(** Claim C8, as the code has it: [set_chip_class] exposes each open
    mode as a read-only static property equal to the native enumerator
    (a host assignment raises [AttributeError]); the module of
    [gpiod.cpp] sets the same constants with [chip.attr(...) = ...], as
    plain class attributes, and a host assignment replaces them. *)
Theorem chip_constants_writable_in_gpiod_cpp (native_enum : string -> string -> Z) :
  (forall n v, In n chip_open_modes ->
     getattr (chip_dict_wrapper native_enum) n = Some (PyLong (native_enum "chip" n))
     /\ setattr (chip_dict_wrapper native_enum) n v = None)
  /\ exists d, chip_dict_gpiod_cpp native_enum = Some d
     /\ getattr d "OPEN_LOOKUP" = Some (PyLong (native_enum "chip" "OPEN_LOOKUP"))
     /\ exists d', setattr d "OPEN_LOOKUP" (PyLong (native_enum "chip" "OPEN_LOOKUP" + 1)) = Some d'
        /\ getattr d' "OPEN_LOOKUP" = Some (PyLong (native_enum "chip" "OPEN_LOOKUP" + 1)).
Proof.
  split.
  - intros n v Hn. cbn in Hn.
    repeat (destruct Hn as [<- | Hn]; [split; reflexivity |]). contradiction.
  - eexists. split; [reflexivity |]. split; [reflexivity |].
    eexists. split; reflexivity.
Qed.

End ClassAttrFacts.

(** * Lifetime of a [line_bulk] under iteration *)
Module KeepAliveFacts.
Import KeepAlive.
Local Open Scope nat_scope.
Local Open Scope list_scope.

Lemma hget_hset_eq (h : heap) (r : nat) (c : cell) : hget (hset h r c) r = Some c.
Proof.
  induction h as [| [k c'] rest IH]; cbn.
  - rewrite Nat.eqb_refl. reflexivity.
  - destruct (Nat.eqb_spec r k) as [->|Hne]; cbn.
    + rewrite Nat.eqb_refl. reflexivity.
    + destruct (Nat.eqb_spec r k); [contradiction | exact IH].
Qed.

Lemma hget_hset_ne (h : heap) (r r' : nat) (c : cell) :
  r' <> r -> hget (hset h r c) r' = hget h r'.
Proof.
  intros Hne. induction h as [| [k c'] rest IH]; cbn.
  - destruct (Nat.eqb_spec r' r); [contradiction | reflexivity].
  - destruct (Nat.eqb_spec r k) as [->|Hrk]; cbn.
    + destruct (Nat.eqb_spec r' k); [contradiction | reflexivity].
    + destruct (Nat.eqb_spec r' k); [reflexivity | exact IH].
Qed.

Lemma hget_le_max (h : heap) (r : nat) (c : cell) :
  hget h r = Some c -> r <= list_max (map fst h).
Proof.
  induction h as [| [k c'] rest IH]; [discriminate |].
  change (list_max (map fst ((k, c') :: rest))) with (Nat.max k (list_max (map fst rest))).
  cbn [hget]. destruct (Nat.eqb_spec r k) as [->|_]; intros H; [lia |].
  specialize (IH H). lia.
Qed.

Lemma hget_fresh (h : heap) : hget h (fresh h) = None.
Proof.
  destruct (hget h (fresh h)) as [c|] eqn:E; [| reflexivity].
  apply hget_le_max in E. unfold fresh in E. lia.
Qed.

Lemma hget_length (h : heap) (r : nat) (c : cell) :
  hget h r = Some c -> 0 < length h.
Proof. destruct h; cbn; [discriminate | lia]. Qed.

(** Dropping a reference to an object that has others only decrements
    its count. *)
Lemma Py_DECREF_shared (h : heap) (r : nat) (o : HeapObj) (n : nat) (p : list nat) :
  hget h r = Some {| obj := o; refcnt := S (S n); patients := p |} ->
  Py_DECREF r h = hset h r {| obj := o; refcnt := S n; patients := p |}.
Proof.
  intros H. unfold Py_DECREF.
  destruct (length h) as [| f] eqn:L.
  - apply hget_length in H. lia.
  - cbn. rewrite H. reflexivity.
Qed.

Lemma drop_n_shared (j : nat) : forall (h : heap) (r : nat) (o : HeapObj) (n : nat) (p : list nat),
  hget h r = Some {| obj := o; refcnt := S (j + n); patients := p |} ->
  hget (drop_n j r h) r = Some {| obj := o; refcnt := S n; patients := p |}
  /\ forall r', r' <> r -> hget (drop_n j r h) r' = hget h r'.
Proof.
  induction j as [| j IH]; intros h r o n p H; cbn.
  - split; [exact H | reflexivity].
  - rewrite (Py_DECREF_shared h r o (j + n) p H).
    destruct (IH (hset h r {| obj := o; refcnt := S (j + n); patients := p |}) r o n p)
      as [H1 H2]; [apply hget_hset_eq |].
    split; [exact H1 |].
    intros r' Hr'. rewrite H2 by exact Hr'. apply hget_hset_ne. exact Hr'.
Qed.

Lemma nth_error_skipn (lines : list nat) (pos l : nat) :
  nth_error lines pos = Some l -> skipn pos lines = l :: skipn (S pos) lines.
Proof.
  revert pos. induction lines as [| x xs IH]; intros [| pos] H; cbn in *;
    try discriminate.
  - injection H as ->. reflexivity.
  - apply IH. exact H.
Qed.

Lemma next_n_fst (m it : nat) (h : heap) :
  fst (next_n (S m) it h)
  = fst (iter_next it h) :: fst (next_n m it (snd (iter_next it h))).
Proof.
  cbn [next_n]. destruct (iter_next it h) as [r h1]. cbn [fst snd].
  destruct (next_n m it h1) as [rs h2]. reflexivity.
Qed.

(** [__next__] walks the bulk's lines from the iterator's position to
    the end, then stops, as long as the bulk stays allocated. *)
Lemma next_n_walk (lines : list nat) (it b : nat) (Hib : it <> b) :
  forall (n pos : nat) (h : heap) (rc rcb : nat) (p pb : list nat),
  n + pos = length lines ->
  hget h it = Some {| obj := IterObj b pos (length lines); refcnt := rc; patients := p |} ->
  hget h b = Some {| obj := BulkObj lines; refcnt := rcb; patients := pb |} ->
  fst (next_n (S n) it h) = map Yield (skipn pos lines) ++ [StopIteration].
Proof.
  induction n as [| n IH]; intros pos h rc rcb p pb Hn Hit Hb.
  - cbn. unfold iter_next. rewrite Hit. cbn in Hn. subst pos.
    cbn [obj]. rewrite Nat.eqb_refl. rewrite skipn_all. reflexivity.
  - assert (Hlt : pos < length lines) by lia.
    destruct (nth_error lines pos) as [l|] eqn:El;
      [| apply nth_error_None in El; lia].
    set (h1 := hset h it {| obj := IterObj b (S pos) (length lines); refcnt := rc; patients := p |}).
    assert (Hstep : iter_next it h = (Yield l, h1)).
    { unfold iter_next. rewrite Hit. cbn [obj].
      destruct (Nat.eqb_spec pos (length lines)) as [|_]; [lia |].
      rewrite Hb. cbn [obj]. rewrite El. reflexivity. }
    rewrite next_n_fst, Hstep. cbn [fst snd].
    rewrite (nth_error_skipn lines pos l El). cbn [map app].
    f_equal.
    apply (IH (S pos) h1 rc rcb p pb).
    + lia.
    + apply hget_hset_eq.
    + unfold h1. rewrite hget_hset_ne by (intros E; apply Hib; symmetry; exact E). exact Hb.
Qed.

(** C9 *)
(** Claim C9: once [line_bulk.__iter__] has returned an iterator, all
    other references to the bulk can be dropped: the iterator's
    [keep_alive] reference keeps the bulk allocated, and [__next__]
    yields every line of the bulk once, in order, then stops. *)
Theorem iter_keeps_bulk_alive (h : heap) (b : nat) (lines : list nat) (k : nat) (p : list nat) :
  hget h b = Some {| obj := BulkObj lines; refcnt := S k; patients := p |} ->
  exists it h1,
    line_bulk_iter b h = Some (it, h1)
    /\ fst (next_n (S (length lines)) it (drop_n (S k) b h1))
       = map Yield lines ++ [StopIteration].
Proof.
  intros Hb.
  set (it := fresh h).
  assert (Hfresh : hget h it = None) by apply hget_fresh.
  assert (Hib : it <> b) by (intros E; rewrite E in Hfresh; congruence).
  set (itc := {| obj := IterObj b 0 (length lines); refcnt := 1; patients := [] |}).
  set (h0 := hset h it itc).
  assert (Hb0 : hget h0 b = Some {| obj := BulkObj lines; refcnt := S k; patients := p |})
    by (unfold h0; rewrite hget_hset_ne by congruence; exact Hb).
  set (h0' := hset h0 b {| obj := BulkObj lines; refcnt := S (S k); patients := p |}).
  assert (Hit0' : hget h0' it = Some itc)
    by (unfold h0'; rewrite hget_hset_ne by exact Hib; apply hget_hset_eq).
  set (h1 := hset h0' it {| obj := IterObj b 0 (length lines); refcnt := 1; patients := [b] |}).
  exists it, h1. split.
  - unfold line_bulk_iter, make_iterator_call. rewrite Hb. cbn [obj].
    fold it. fold itc. fold h0. f_equal. f_equal.
    unfold keep_alive, Py_INCREF. rewrite Hb0. cbn [obj refcnt patients].
    unfold h0' in Hit0'. rewrite Hit0'. reflexivity.
  - assert (Hb1 : hget h1 b = Some {| obj := BulkObj lines; refcnt := S (S k + 0); patients := p |}).
    { unfold h1. rewrite hget_hset_ne by congruence. unfold h0'.
      rewrite hget_hset_eq. repeat f_equal. lia. }
    destruct (drop_n_shared (S k) h1 b _ 0 p Hb1) as [Hb2 Hother].
    replace lines with (skipn 0 lines) at 2 by reflexivity.
    apply (next_n_walk lines it b Hib (length lines) 0 _ 1 1 [b] p).
    + lia.
    + rewrite Hother by exact Hib. apply hget_hset_eq.
    + exact Hb2.
Qed.

End KeepAliveFacts.

(** * Properties of the further [line] bindings *)
Module BindingFacts.
Import Dispatch Bindings.

Lemma convert_int_ok (ULONG_BITS d : Z) (st : PyErrState) :
  INT_MIN <= d <= INT_MAX ->
  convert ULONG_BITS TInt (PyLong d) st = (Some (CInt d), st).
Proof.
  intros Hd. cbn [convert int_of].
  replace ((INT_MIN <=? d) && (d <=? INT_MAX)) with true
    by (symmetry; apply andb_true_iff; split; apply Z.leb_le; lia).
  reflexivity.
Qed.

Lemma convert_self (ULONG_BITS : Z) (c : string) (id : nat) (st : PyErrState) :
  convert ULONG_BITS (TClass c) (PyHandle c id) st = (Some (CRef c id), st).
Proof. cbn [convert]. rewrite String.eqb_refl. reflexivity. Qed.

Lemma convert_int_any (ULONG_BITS : Z) (o : PyObject) (st : PyErrState) :
  convert ULONG_BITS TInt o st = (option_map CInt (int_of o), st).
Proof. cbn [convert]. destruct (int_of o); reflexivity. Qed.

Lemma convert_bits_ok (ULONG_BITS f : Z) (st : PyErrState) :
  32 <= ULONG_BITS -> 0 <= f < 2 ^ 32 - 1 ->
  convert ULONG_BITS TBitset (PyLong f) st = (Some (CBits f), st).
Proof.
  intros HU Hf. cbn [convert].
  rewrite TypeCastFacts.load_in_ulong
    by (apply (TypeCastFacts.small_in_ulong ULONG_BITS HU); lia).
  cbn [TypeCast.load_ok TypeCast.load_value TypeCast.load_err].
  rewrite Z.mod_small by lia.
  rewrite (proj2 (Z.eqb_neq f (2 ^ 32 - 1))) by lia. reflexivity.
Qed.

Lemma convert_bits_all_ones (ULONG_BITS : Z) :
  32 <= ULONG_BITS ->
  convert ULONG_BITS TBitset (PyLong 4294967295) None = (None, None).
Proof.
  intros HU. cbn [convert].
  rewrite TypeCastFacts.load_in_ulong
    by (apply (TypeCastFacts.small_in_ulong ULONG_BITS HU); lia).
  reflexivity.
Qed.


(** X1 *)
(** [line.set_config(direction, flags)] is the call
    [line.set_config(direction, flags, 0)]: for an [int] direction and
    flags below [0xFFFFFFFF], the native [set_config] receives the
    direction, the flags as a bit set and the value [0]. *)
Theorem set_config_default_value (ULONG_BITS : Z) {R : Type} (native : list CVal -> R)
    (s : nat) (d f : Z) (st : PyErrState) :
  32 <= ULONG_BITS ->
  INT_MIN <= d <= INT_MAX ->
  0 <= f < 2 ^ 32 - 1 ->
  dispatch ULONG_BITS line_set_config_params native [PyHandle "line" s; PyLong d; PyLong f] [] st
  = Returned (native [CRef "line" s; CInt d; CBits f; CInt 0])
  /\ dispatch ULONG_BITS line_set_config_params native
       [PyHandle "line" s; PyLong d; PyLong f; PyLong 0] [] st
     = Returned (native [CRef "line" s; CInt d; CBits f; CInt 0]).
Proof.
  intros HU Hd Hf.
  split; unfold dispatch; cbn [kw_known forallb negb line_set_config_params match_args
    assoc_str arg_name arg_default option_map self_arg int_arg convert_all arg_ty];
    rewrite convert_self;
    rewrite convert_int_ok by exact Hd;
    rewrite convert_bits_ok by (exact HU || lia);
    rewrite convert_int_ok by (unfold INT_MIN, INT_MAX; lia);
    reflexivity.
Qed.

(** X2 *)
(** The flag set [0xFFFFFFFF] cannot be passed to [line.set_config] or
    [line.set_flags]: with no error pending, both calls raise
    [TypeError] whatever the other arguments, and the native method is
    not called. *)
Theorem all_ones_flags_rejected (ULONG_BITS : Z) {R : Type} (native : list CVal -> R)
    (s : nat) (d : Z) (rest : list PyObject) :
  32 <= ULONG_BITS ->
  dispatch ULONG_BITS line_set_config_params native
    ([PyHandle "line" s; PyLong d; PyLong 4294967295] ++ rest) [] None = Raised TypeError
  /\ dispatch ULONG_BITS line_set_flags_params native
       [PyHandle "line" s; PyLong 4294967295] [] None = Raised TypeError.
Proof.
  intros HU. split.
  - unfold dispatch. cbn [kw_known forallb negb].
    destruct (match_args line_set_config_params
                ([PyHandle "line" s; PyLong d; PyLong 4294967295] ++ rest) []) as [vs|] eqn:E;
      [| reflexivity].
    destruct rest as [| v [| w rest']]; cbn in E; try discriminate E;
      injection E as <-; cbn [convert_all line_set_config_params self_arg int_arg arg_ty];
      rewrite convert_self;
      rewrite convert_int_any;
      destruct (int_of (PyLong d)); cbn [option_map fst]; try reflexivity;
      rewrite convert_bits_all_ones by exact HU; reflexivity.
  - unfold dispatch. cbn [kw_known forallb negb line_set_flags_params match_args
      assoc_str arg_name arg_default option_map self_arg convert_all arg_ty].
    rewrite convert_self.
    rewrite convert_bits_all_ones by exact HU. reflexivity.
Qed.


(** X4 *)
(** [line.set_direction_output()] is the call
    [line.set_direction_output(0)], also written [value=0]: the native
    method receives [0]. *)
Theorem set_direction_output_default (ULONG_BITS : Z) {R : Type} (native : list CVal -> R)
    (s : nat) (st : PyErrState) :
  dispatch ULONG_BITS line_set_direction_output_params native [PyHandle "line" s] [] st
  = Returned (native [CRef "line" s; CInt 0])
  /\ dispatch ULONG_BITS line_set_direction_output_params native
       [PyHandle "line" s; PyLong 0] [] st = Returned (native [CRef "line" s; CInt 0])
  /\ dispatch ULONG_BITS line_set_direction_output_params native
       [PyHandle "line" s] [("value", PyLong 0)] st = Returned (native [CRef "line" s; CInt 0]).
Proof. repeat split; reflexivity. Qed.


(** X6 *)
(** Assigning [line_request.flags] an integer below [0xFFFFFFFF] and
    reading it back gives the same integer, other fields unchanged;
    assigning [0xFFFFFFFF] raises [TypeError]. *)
Theorem flags_attr_roundtrip (ULONG_BITS : Z) (req : line_request_fields) (id : nat) (x : Z) :
  32 <= ULONG_BITS ->
  0 <= x <= 2 ^ 32 - 1 ->
  (x < 2 ^ 32 - 1 ->
   exists req', set_flags_attr ULONG_BITS req id (PyLong x) None = Returned req'
                /\ get_flags_attr ULONG_BITS req' = Some (PyLong x)
                /\ consumer req' = consumer req
                /\ request_type req' = request_type req)
  /\ (x = 2 ^ 32 - 1 -> set_flags_attr ULONG_BITS req id (PyLong x) None = Raised TypeError).
Proof.
  intros HU Hx. split.
  - intros Hlt.
    exists {| consumer := consumer req; request_type := request_type req; flags := x |}.
    split; [| split; [| split; reflexivity]].
    + unfold set_flags_attr, dispatch. cbn [kw_known forallb negb
        line_request_flags_setter_params match_args assoc_str arg_name arg_default
        option_map self_arg convert_all arg_ty].
      rewrite convert_self.
      rewrite convert_bits_ok by (exact HU || lia). reflexivity.
    + unfold get_flags_attr, TypeCast.cast, TypeCast.to_ulong. cbn [flags].
      pose proof (TypeCastFacts.two32_le_ulong ULONG_BITS HU).
      replace (x <=? TypeCast.ULONG_MAX ULONG_BITS) with true
        by (symmetry; apply Z.leb_le; unfold TypeCast.ULONG_MAX; lia).
      reflexivity.
  - intros ->. unfold set_flags_attr, dispatch. cbn [kw_known forallb negb
      line_request_flags_setter_params match_args assoc_str arg_name arg_default
      option_map self_arg convert_all arg_ty].
    rewrite convert_self.
    rewrite convert_bits_all_ones by exact HU. reflexivity.
Qed.

End BindingFacts.

(** * Properties of the class constants of every class *)
Module ConstantFacts.
Import ClassAttrs Constants.

Ltac per_name :=
  let Hn := fresh "Hn" in
  intros ? ? Hn; cbn in Hn;
  repeat (destruct Hn as [<- | Hn]; [split; reflexivity |]); contradiction.

(** X7 *)
(** In the wrapper headers every constant (the line directions and
    active states, the bias modes with libgpiodcxx >= 1.5, the
    line_request directions and edge requests, the line_event edge types
    and [line_bulk.MAX_LINES]) reads as its native enumerator and
    refuses assignment; before 1.5 the bias constants are absent. *)
Theorem wrapper_constants_read_only (native_enum : string -> string -> Z) :
  (forall v15 n v, In n line_directions_active ->
     getattr (line_dict_wrapper native_enum v15) n = Some (PyLong (native_enum "line" n))
     /\ setattr (line_dict_wrapper native_enum v15) n v = None)
  /\ (forall n v, In n line_biases ->
     getattr (line_dict_wrapper native_enum true) n = Some (PyLong (native_enum "line" n))
     /\ setattr (line_dict_wrapper native_enum true) n v = None)
  /\ (forall n, In n line_biases -> getattr (line_dict_wrapper native_enum false) n = None)
  /\ (forall n v, In n line_request_consts ->
     getattr (line_request_dict_wrapper native_enum) n
       = Some (PyLong (native_enum "line_request" n))
     /\ setattr (line_request_dict_wrapper native_enum) n v = None)
  /\ (forall n v, In n line_event_consts ->
     getattr (line_event_dict_wrapper native_enum) n
       = Some (PyLong (native_enum "line_event" n))
     /\ setattr (line_event_dict_wrapper native_enum) n v = None)
  /\ (forall v, getattr (line_bulk_dict_wrapper native_enum) "MAX_LINES"
       = Some (PyLong (native_enum "line_bulk" "MAX_LINES"))
     /\ setattr (line_bulk_dict_wrapper native_enum) "MAX_LINES" v = None).
Proof.
  split; [intros v15; destruct v15; per_name |].
  split; [per_name |].
  split; [intros n Hn; cbn in Hn;
          repeat (destruct Hn as [<- | Hn]; [reflexivity |]); contradiction |].
  split; [per_name |].
  split; [per_name |].
  intros v; split; reflexivity.
Qed.


End ConstantFacts.

(** * Releasing the [keep_alive] reference *)
Module KeepAliveRelease.
Import KeepAlive KeepAliveFacts.
Local Open Scope nat_scope.
Local Open Scope list_scope.

Lemma hget_some_in (h : heap) (r : nat) (c : cell) :
  hget h r = Some c -> In r (map fst h).
Proof.
  induction h as [| [k c'] rest IH]; cbn; [discriminate |].
  destruct (Nat.eqb_spec r k) as [->|_]; intros H; [left; reflexivity | right; auto].
Qed.

Lemma hget_notin (h : heap) (r : nat) : ~ In r (map fst h) -> hget h r = None.
Proof.
  intros Hn. destruct (hget h r) as [c|] eqn:E; [| reflexivity].
  exfalso. exact (Hn (hget_some_in h r c E)).
Qed.

Lemma keys_hset (h : heap) (r x : nat) (c : cell) :
  In x (map fst (hset h r c)) -> x = r \/ In x (map fst h).
Proof.
  induction h as [| [k c'] rest IH]; cbn.
  - intros [-> | []]. left; reflexivity.
  - destruct (Nat.eqb_spec r k) as [->|_]; cbn.
    + intros [-> | H]; right; [left | right]; auto.
    + intros [-> | H]; [right; left; reflexivity |].
      destruct (IH H); [left | right; right]; auto.
Qed.

Lemma nodup_hset (h : heap) (r : nat) (c : cell) :
  NoDup (map fst h) -> NoDup (map fst (hset h r c)).
Proof.
  induction h as [| [k c'] rest IH]; cbn; intros Hnd.
  - constructor; [intros [] | constructor].
  - inversion Hnd as [| ? ? Hk Hrest]; subst.
    destruct (Nat.eqb_spec r k) as [->|Hrk]; cbn; [constructor; assumption |].
    constructor; [| exact (IH Hrest)].
    intros Hin. destruct (keys_hset rest r k c Hin); [congruence | contradiction].
Qed.

Lemma hget_hremove_ne (h : heap) (r r' : nat) :
  r' <> r -> hget (hremove h r) r' = hget h r'.
Proof.
  intros Hne. induction h as [| [k c] rest IH]; cbn; [reflexivity |].
  destruct (Nat.eqb_spec r k) as [->|_]; cbn.
  - destruct (Nat.eqb_spec r' k); [contradiction | reflexivity].
  - destruct (Nat.eqb_spec r' k); [reflexivity | exact IH].
Qed.

Lemma keys_hremove (h : heap) (r x : nat) :
  In x (map fst (hremove h r)) -> In x (map fst h).
Proof.
  induction h as [| [k c] rest IH]; cbn; [tauto |].
  destruct (Nat.eqb_spec r k); cbn; [tauto |].
  intros [-> | H]; [left | right; auto]; reflexivity.
Qed.

Lemma nodup_hremove (h : heap) (r : nat) :
  NoDup (map fst h) -> NoDup (map fst (hremove h r)).
Proof.
  induction h as [| [k c] rest IH]; cbn; intros Hnd; [constructor |].
  inversion Hnd as [| ? ? Hk Hrest]; subst.
  destruct (Nat.eqb_spec r k); [exact Hrest |].
  cbn. constructor; [| exact (IH Hrest)].
  intros Hin. exact (Hk (keys_hremove rest r k Hin)).
Qed.

Lemma hget_hremove_eq (h : heap) (r : nat) :
  NoDup (map fst h) -> hget (hremove h r) r = None.
Proof.
  induction h as [| [k c] rest IH]; cbn; intros Hnd; [reflexivity |].
  inversion Hnd as [| ? ? Hk Hrest]; subst.
  destruct (Nat.eqb_spec r k) as [->|Hrk].
  - apply hget_notin. exact Hk.
  - cbn. destruct (Nat.eqb_spec r k); [contradiction | exact (IH Hrest)].
Qed.

Lemma length_hremove (h : heap) (r : nat) (c : cell) :
  hget h r = Some c -> S (length (hremove h r)) = length h.
Proof.
  induction h as [| [k c'] rest IH]; cbn; [discriminate |].
  destruct (Nat.eqb_spec r k); cbn; [reflexivity |].
  intros H. rewrite (IH H). reflexivity.
Qed.

(** Releasing references never brings back a freed object. *)
Lemma decref_absent (f : nat) : forall (r r' : nat) (h : heap),
  hget h r' = None -> hget (decref f r h) r' = None.
Proof.
  induction f as [| f IH]; intros r r' h Hr'; cbn; [exact Hr' |].
  destruct (hget h r) as [c|] eqn:Ec; [| exact Hr'].
  assert (Hne : r' <> r) by (intros ->; congruence).
  assert (Hfold : forall ps h', hget h' r' = None ->
            hget (fold_left (fun h'' p => decref f p h'') ps h') r' = None).
  { induction ps as [| q ps IHps]; intros h' H'; cbn; [exact H' |].
    apply IHps. apply IH. exact H'. }
  destruct (refcnt c) as [| [| n]].
  - apply Hfold. rewrite hget_hremove_ne by exact Hne. exact Hr'.
  - apply Hfold. rewrite hget_hremove_ne by exact Hne. exact Hr'.
  - rewrite hget_hset_ne by exact Hne. exact Hr'.
Qed.

Lemma decref_absent_fold (f : nat) (ps : list nat) : forall (h : heap) (r' : nat),
  hget h r' = None ->
  hget (fold_left (fun h' q => decref f q h') ps h) r' = None.
Proof.
  induction ps as [| q ps IH]; intros h r' H; cbn; [exact H |].
  apply IH. apply decref_absent. exact H.
Qed.

Lemma nodup_decref (f : nat) : forall (r : nat) (h : heap),
  NoDup (map fst h) -> NoDup (map fst (decref f r h)).
Proof.
  induction f as [| f IH]; intros r h Hnd; cbn; [exact Hnd |].
  destruct (hget h r) as [c|]; [| exact Hnd].
  assert (Hfold : forall ps h', NoDup (map fst h') ->
            NoDup (map fst (fold_left (fun h'' p => decref f p h'') ps h'))).
  { induction ps as [| q ps IHps]; intros h' H'; cbn; [exact H' |].
    apply IHps. apply IH. exact H'. }
  destruct (refcnt c) as [| [| n]];
    [apply Hfold, nodup_hremove, Hnd | apply Hfold, nodup_hremove, Hnd |
     apply nodup_hset, Hnd].
Qed.

Lemma nodup_drop_n (j r : nat) : forall (h : heap),
  NoDup (map fst h) -> NoDup (map fst (drop_n j r h)).
Proof.
  induction j as [| j IH]; intros h Hnd; cbn; [exact Hnd |].
  apply IH. unfold Py_DECREF. apply nodup_decref. exact Hnd.
Qed.

(** The heap right after [line_bulk.__iter__]. *)
Lemma line_bulk_iter_heap (h : heap) (b : nat) (lines : list nat) (k : nat) (p : list nat) :
  NoDup (map fst h) ->
  hget h b = Some {| obj := BulkObj lines; refcnt := S k; patients := p |} ->
  exists h1,
    line_bulk_iter b h = Some (fresh h, h1)
    /\ hget h1 (fresh h) = Some {| obj := IterObj b 0 (length lines); refcnt := 1;
                                   patients := [b] |}
    /\ hget h1 b = Some {| obj := BulkObj lines; refcnt := S (S k); patients := p |}
    /\ NoDup (map fst h1)
    /\ fresh h <> b.
Proof.
  intros Hnd Hb.
  assert (Hib : fresh h <> b)
    by (intros E; pose proof (hget_fresh h) as F; rewrite E in F; congruence).
  set (itc := {| obj := IterObj b 0 (length lines); refcnt := 1; patients := [] |}).
  set (h0 := hset h (fresh h) itc).
  assert (Hb0 : hget h0 b = Some {| obj := BulkObj lines; refcnt := S k; patients := p |})
    by (unfold h0; rewrite hget_hset_ne by congruence; exact Hb).
  set (h0' := hset h0 b {| obj := BulkObj lines; refcnt := S (S k); patients := p |}).
  assert (Hit0' : hget h0' (fresh h) = Some itc)
    by (unfold h0'; rewrite hget_hset_ne by exact Hib; apply hget_hset_eq).
  exists (hset h0' (fresh h) {| obj := IterObj b 0 (length lines); refcnt := 1;
                                patients := [b] |}).
  split; [| split; [| split; [| split]]].
  - unfold line_bulk_iter, make_iterator_call. rewrite Hb. cbn [obj].
    fold itc. fold h0. f_equal. f_equal.
    unfold keep_alive, Py_INCREF. rewrite Hb0. cbn [obj refcnt patients].
    unfold h0' in Hit0'. rewrite Hit0'. reflexivity.
  - apply hget_hset_eq.
  - rewrite hget_hset_ne by congruence. unfold h0'. apply hget_hset_eq.
  - apply nodup_hset. unfold h0'. apply nodup_hset. unfold h0. apply nodup_hset. exact Hnd.
  - exact Hib.
Qed.

(** Freeing an iterator that holds the only keep-alive reference to a
    bulk with [rc] references in total. *)
Lemma free_iterator (h : heap) (it b : nat) (e : nat) (lines : list nat) (rc : nat)
    (p : list nat) :
  it <> b -> NoDup (map fst h) ->
  hget h it = Some {| obj := IterObj b 0 e; refcnt := 1; patients := [b] |} ->
  hget h b = Some {| obj := BulkObj lines; refcnt := S rc; patients := p |} ->
  hget (Py_DECREF it h) it = None
  /\ hget (Py_DECREF it h) b
     = match rc with
       | O => None
       | S n => Some {| obj := BulkObj lines; refcnt := rc; patients := p |}
       end.
Proof.
  intros Hib Hnd Hit Hb. unfold Py_DECREF.
  rewrite <- (length_hremove h it _ Hit). cbn [decref]. rewrite Hit. cbn [refcnt patients].
  cbn [fold_left].
  set (h3 := hremove h it).
  assert (Hb3 : hget h3 b = Some {| obj := BulkObj lines; refcnt := S rc; patients := p |})
    by (unfold h3; rewrite hget_hremove_ne by congruence; exact Hb).
  assert (Hit3 : hget h3 it = None) by (apply hget_hremove_eq; exact Hnd).
  destruct (length h3) as [| f] eqn:L; [apply hget_length in Hb3; lia |].
  cbn [decref]. rewrite Hb3. cbn [refcnt patients obj].
  destruct rc as [| n].
  - assert (Hgone : hget (hremove h3 b) b = None)
      by (apply hget_hremove_eq; apply nodup_hremove; exact Hnd).
    split; apply decref_absent_fold; [| exact Hgone].
    rewrite hget_hremove_ne by congruence. exact Hit3.
  - split; cbn [fold_left].
    + rewrite hget_hset_ne by congruence. exact Hit3.
    + apply hget_hset_eq.
Qed.

(** X9 *)
(** Freeing the iterator returned by [line_bulk.__iter__] gives back its
    keep-alive reference: if other references to the bulk remain, its
    reference count is what it was before [__iter__]; if none remain
    (they were all dropped during iteration), the bulk is freed too. *)
Theorem iterator_release (h : heap) (b : nat) (lines : list nat) (k : nat) (p : list nat) :
  NoDup (map fst h) ->
  hget h b = Some {| obj := BulkObj lines; refcnt := S k; patients := p |} ->
  exists it h1,
    line_bulk_iter b h = Some (it, h1)
    /\ hget (Py_DECREF it h1) it = None
    /\ hget (Py_DECREF it h1) b = Some {| obj := BulkObj lines; refcnt := S k; patients := p |}
    /\ hget (Py_DECREF it (drop_n (S k) b h1)) it = None
    /\ hget (Py_DECREF it (drop_n (S k) b h1)) b = None.
Proof.
  intros Hnd Hb.
  destruct (line_bulk_iter_heap h b lines k p Hnd Hb) as (h1 & Hcall & Hit1 & Hb1 & Hnd1 & Hib).
  exists (fresh h), h1. split; [exact Hcall |].
  destruct (free_iterator h1 (fresh h) b (length lines) lines (S k) p Hib Hnd1 Hit1 Hb1)
    as [Ha Hb'].
  split; [exact Ha |]. split; [exact Hb' |].
  assert (Hb1' : hget h1 b = Some {| obj := BulkObj lines; refcnt := S (S k + 0); patients := p |})
    by (rewrite Hb1; repeat f_equal; lia).
  destruct (drop_n_shared (S k) h1 b _ 0 p Hb1') as [Hb2 Hother].
  destruct (free_iterator (drop_n (S k) b h1) (fresh h) b (length lines) lines 0 p Hib
              (nodup_drop_n (S k) b h1 Hnd1)
              ltac:(rewrite Hother by exact Hib; exact Hit1) Hb2) as [Hc Hd].
  split; [exact Hc | exact Hd].
Qed.

End KeepAliveRelease.

(** * Concrete instances (LP64: [unsigned long] of 64 bits) *)
Module Instances.
Import TypeCast.

Definition demo_heap : KeepAlive.heap :=
  [(1%nat, {| KeepAlive.obj := KeepAlive.BulkObj [10; 11; 12]%nat;
             KeepAlive.refcnt := 1; KeepAlive.patients := [] |})].

Lemma load_rejects_all_ones_witness :
  32 <= 64
  /\ load 64 (PyLong 4294967295) None
     = {| load_ok := false; load_value := 4294967295; load_err := None |}.
Proof. split; [lia | apply (TypeCastFacts.load_rejects_all_ones 64); lia]. Defined.

Lemma load_cast_roundtrip_except_all_ones_witness :
  32 <= 64 /\ 0 <= 5 < 2 ^ 32
  /\ ((load_ok (load 64 (PyLong 5) None) = true
       /\ cast 64 (load_value (load 64 (PyLong 5) None)) = Some (PyLong 5))
      <-> 5 <> 2 ^ 32 - 1).
Proof.
  split; [lia | split; [lia |]].
  apply (TypeCastFacts.load_cast_roundtrip_except_all_ones 64); lia.
Defined.

Lemma load_single_bit_witness :
  32 <= 64 /\ 0 <= 3 < 32
  /\ load_ok (load 64 (PyLong (2 ^ 3)) None) = true
  /\ forall j, 0 <= j < 32 -> bitset_test (load_value (load 64 (PyLong (2 ^ 3)) None)) j = Z.eqb j 3.
Proof.
  split; [lia | split; [lia |]].
  apply (TypeCastFacts.load_single_bit 64); lia.
Defined.

Lemma load_rejects_non_numeric_witness :
  fst (PyNumber_Long (PyStr "abc") None) = None
  /\ TypeCast.load_ok (TypeCast.load 64 (PyStr "abc") None) = false
  /\ Dispatch.dispatch 64 Dispatch.line_request_flags_setter_params (fun _ => tt)
       [PyHandle "line_request" 0; PyStr "abc"] [] None = Dispatch.Raised TypeError.
Proof.
  split; [reflexivity |].
  apply (DispatchFacts.load_rejects_non_numeric 64 (fun _ => tt) (PyStr "abc") None 0%nat).
  reflexivity.
Defined.

(** Claim C5 fails: on LP64, [2^32] (which needs 33 bits) is accepted. *)
Lemma load_accepts_33_bit_value :
  ~ (forall x, x < 0 \/ 2 ^ 32 - 1 < x -> load_ok (load 64 (PyLong x) None) = false).
Proof.
  intros H. specialize (H (2 ^ 32) (or_intror eq_refl)).
  vm_compute in H. discriminate H.
Qed.

Lemma load_truncates_wide_witness :
  2 ^ 32 <= 2 ^ 32 <= ULONG_MAX 64 /\ 2 ^ 32 mod 2 ^ 32 <> 2 ^ 32 - 1
  /\ load 64 (PyLong (2 ^ 32)) None
     = {| load_ok := true; load_value := 2 ^ 32 mod 2 ^ 32; load_err := None |}.
Proof.
  assert (H1 : 2 ^ 32 <= 2 ^ 32 <= ULONG_MAX 64) by (vm_compute; split; discriminate).
  assert (H2 : 2 ^ 32 mod 2 ^ 32 <> 2 ^ 32 - 1) by (vm_compute; discriminate).
  split; [exact H1 | split; [exact H2 |]].
  exact (TypeCastFacts.load_truncates_wide 64 (2 ^ 32) H1 H2).
Defined.

Lemma cast_total_bitwise_witness :
  32 <= 64 /\ 0 <= 5 < 2 ^ 32
  /\ exists n, cast 64 5 = Some (PyLong n) /\ 0 <= n
               /\ forall i, 0 <= i < 32 -> Z.testbit n i = bitset_test 5 i.
Proof.
  split; [lia | split; [lia |]].
  apply (TypeCastFacts.cast_total_bitwise 64); lia.
Defined.

Lemma load_accepts_failed_extraction_witness :
  32 <= 64 /\ fst (PyNumber_Long (PyLong (-3)) None) = Some (-3)
  /\ (-3 < 0 \/ ULONG_MAX 64 < -3)
  /\ load 64 (PyLong (-3)) None
     = {| load_ok := true; load_value := 2 ^ 32 - 1; load_err := Some OverflowError |}.
Proof.
  split; [lia | split; [reflexivity | split; [left; lia |]]].
  assert (H0 : 32 <= 64) by lia.
  apply (TypeCastFacts.load_accepts_failed_extraction 64 H0 (PyLong (-3)) None (-3));
    [reflexivity | left; lia].
Defined.

Lemma iter_keeps_bulk_alive_witness :
  KeepAlive.hget demo_heap 1
  = Some {| KeepAlive.obj := KeepAlive.BulkObj [10; 11; 12]%nat;
            KeepAlive.refcnt := 1; KeepAlive.patients := [] |}
  /\ exists it h1,
       KeepAlive.line_bulk_iter 1 demo_heap = Some (it, h1)
       /\ fst (KeepAlive.next_n 4 it (KeepAlive.drop_n 1 1 h1))
          = (map KeepAlive.Yield [10; 11; 12]%nat ++ [KeepAlive.StopIteration])%list.
Proof.
  split; [reflexivity |].
  apply (KeepAliveFacts.iter_keeps_bulk_alive demo_heap 1 [10; 11; 12]%nat 0 []).
  reflexivity.
Defined.

End Instances.

(** * Concrete instances of the further properties (LP64) *)
Module ExtraInstances.
Import Dispatch Bindings.

Definition req0 : line_request_fields :=
  {| consumer := "app"; request_type := 2; flags := 0 |}.

Lemma set_config_default_value_witness :
  32 <= 64 /\ INT_MIN <= 2 <= INT_MAX /\ 0 <= 5 < 2 ^ 32 - 1
  /\ dispatch 64 line_set_config_params (fun cs => cs) [PyHandle "line" 0; PyLong 2; PyLong 5] [] None
     = Returned [CRef "line" 0; CInt 2; CBits 5; CInt 0]
  /\ dispatch 64 line_set_config_params (fun cs => cs)
       [PyHandle "line" 0; PyLong 2; PyLong 5; PyLong 0] [] None
     = Returned [CRef "line" 0; CInt 2; CBits 5; CInt 0].
Proof.
  assert (H1 : 32 <= 64) by lia.
  assert (H2 : INT_MIN <= 2 <= INT_MAX) by (unfold INT_MIN, INT_MAX; lia).
  assert (H3 : 0 <= 5 < 2 ^ 32 - 1) by lia.
  split; [exact H1 | split; [exact H2 | split; [exact H3 |]]].
  exact (BindingFacts.set_config_default_value 64 (fun cs => cs) 0%nat 2 5 None H1 H2 H3).
Defined.

Lemma all_ones_flags_rejected_witness :
  32 <= 64
  /\ dispatch 64 line_set_config_params (fun cs => cs)
       ([PyHandle "line" 0; PyLong 2; PyLong 4294967295] ++ [PyLong 1]) [] None = Raised TypeError
  /\ dispatch 64 line_set_flags_params (fun cs => cs)
       [PyHandle "line" 0; PyLong 4294967295] [] None = Raised TypeError.
Proof.
  assert (H1 : 32 <= 64) by lia.
  split; [exact H1 |].
  exact (BindingFacts.all_ones_flags_rejected 64 (fun cs => cs) 0%nat 2 [PyLong 1] H1).
Defined.


Lemma flags_attr_roundtrip_witness :
  32 <= 64 /\ 0 <= 5 <= 2 ^ 32 - 1
  /\ (5 < 2 ^ 32 - 1 ->
      exists req', set_flags_attr 64 req0 0 (PyLong 5) None = Returned req'
                   /\ get_flags_attr 64 req' = Some (PyLong 5)
                   /\ consumer req' = consumer req0
                   /\ request_type req' = request_type req0)
  /\ (5 = 2 ^ 32 - 1 -> set_flags_attr 64 req0 0 (PyLong 5) None = Raised TypeError).
Proof.
  assert (H1 : 32 <= 64) by lia.
  assert (H2 : 0 <= 5 <= 2 ^ 32 - 1) by lia.
  split; [exact H1 | split; [exact H2 |]].
  exact (BindingFacts.flags_attr_roundtrip 64 req0 0%nat 5 H1 H2).
Defined.

Lemma iterator_release_witness :
  NoDup (map fst Instances.demo_heap)
  /\ KeepAlive.hget Instances.demo_heap 1
     = Some {| KeepAlive.obj := KeepAlive.BulkObj [10; 11; 12]%nat;
               KeepAlive.refcnt := 1; KeepAlive.patients := [] |}
  /\ exists it h1,
       KeepAlive.line_bulk_iter 1 Instances.demo_heap = Some (it, h1)
       /\ KeepAlive.hget (KeepAlive.Py_DECREF it h1) it = None
       /\ KeepAlive.hget (KeepAlive.Py_DECREF it h1) 1
          = Some {| KeepAlive.obj := KeepAlive.BulkObj [10; 11; 12]%nat;
                    KeepAlive.refcnt := 1; KeepAlive.patients := [] |}
       /\ KeepAlive.hget (KeepAlive.Py_DECREF it (KeepAlive.drop_n 1 1 h1)) it = None
       /\ KeepAlive.hget (KeepAlive.Py_DECREF it (KeepAlive.drop_n 1 1 h1)) 1 = None.
Proof.
  assert (H1 : NoDup (map fst Instances.demo_heap))
    by (constructor; [intros [] | constructor]).
  assert (H2 : KeepAlive.hget Instances.demo_heap 1
     = Some {| KeepAlive.obj := KeepAlive.BulkObj [10; 11; 12]%nat;
               KeepAlive.refcnt := 1; KeepAlive.patients := [] |}) by reflexivity.
  split; [exact H1 | split; [exact H2 |]].
  exact (KeepAliveRelease.iterator_release Instances.demo_heap 1 [10; 11; 12]%nat 0 [] H1 H2).
Defined.

End ExtraInstances.
